(** * The rich-text editor wrapper of [src/components/editor.tsx]

    A shallow embedding of the [Editor] React component: its props, the
    six [useRef] cells, the every-render layout effect, the mount-time
    creation effect with its cleanup, and the element tree it returns.

    The component runs inside two pieces of foreign code, which are
    modelled just far enough to execute it:
    - React: first render / later renders / unmount, ref attachment at
      commit, layout effects before paint, passive effects after paint,
      dependency arrays (production semantics, no strict-mode replay);
    - Quill: the constructor [new Quill(container, options)], kept
      abstract in the class [QuillLib]: everything proved about the
      component holds whatever the widget does to the DOM. *)

From stdpp Require Import base option list strings gmap.

Open Scope string_scope.
Open Scope list_scope.

(** ** Values the component handles *)

(** Closures owned by the parent ([onSubmit], [onCancel]) are opaque to
    the component: it can only store them or call them. *)
Abbreviation Callback := nat (only parsing).

(** [File] objects are opaque handles. *)
Abbreviation File := nat (only parsing).

(** [type EditorValue = { image: File | null; body: string }] *)
Record EditorValue := mkEditorValue {
  image : option File;
  body : string
}.

(** Quill's [Op]: one content operation. *)
Inductive Op :=
| OpInsert (text : string)
| OpDelete (n : nat)
| OpRetain (n : nat).

(** [defaultValue?: Delta | Op[]] *)
Inductive DefaultValue :=
| DVDelta (ops : list Op)
| DVOps (ops : list Op).

Definition ops_of (dv : DefaultValue) : list Op :=
  match dv with DVDelta ops => ops | DVOps ops => ops end.

(** [variant?: "create" | "update"] *)
Inductive Variant := create | update.

Definition variant_eqb (a b : Variant) : bool :=
  match a, b with
  | create, create | update, update => true
  | _, _ => false
  end.

#[global] Instance Op_eq_dec : EqDecision Op.
Proof. solve_decision. Defined.
#[global] Instance DefaultValue_eq_dec : EqDecision DefaultValue.
Proof. solve_decision. Defined.
#[global] Instance Variant_eq_dec : EqDecision Variant.
Proof. solve_decision. Defined.

(** ** The DOM heap *)

Abbreviation NodeId := nat (only parsing).

(** An element: tag, class attribute and child elements. *)
Record Node := mkNode {
  tag : string;
  className : string;
  children : list NodeId
}.

(** Elements are allocated at the end of the heap and never freed. *)
Abbreviation Dom := (list Node) (only parsing).

(** ** The Quill widget (third party) *)

(** The fields of [QuillOptions] that matter to a message editor; a
    field left out of the object literal is [None]. *)
Record QuillOptions := mkQuillOptions {
  theme : option string;
  opt_placeholder : option string;
  opt_readOnly : option bool
}.

Abbreviation QuillId := nat (only parsing).

(** A live widget: the element and options it was constructed with and
    the document it shows. *)
Record Quill := mkQuill {
  q_container : NodeId;
  q_options : QuillOptions;
  q_contents : list Op
}.

(** What the constructor does is not this repository's code: it
    decorates the DOM around its container and builds its first
    document from the container and the options.  It cannot free an
    element. *)
Class QuillLib := {
  quill_render : NodeId -> QuillOptions -> Dom -> Dom;
  quill_document : NodeId -> QuillOptions -> Dom -> list Op;
  quill_render_keeps : forall el o d, length d <= length (quill_render el o d)
}.

(** ** The world outside the component *)

(** Mutable cells owned by the parent ([MutableRefObject<Quill | null>]),
    addressed by identity: two props naming the same cell alias. *)
Abbreviation CellId := nat (only parsing).

(** Calls the component itself makes on foreign objects, in order. *)
Inductive Call :=
| CallCreateElement (tagName : string) (result : NodeId)
| CallAppendChild (parent child : NodeId)
| CallNewQuill (el : NodeId) (o : QuillOptions)
| CallSetInnerHTML (el : NodeId) (html : string)
| CallOnSubmit (f : Callback) (v : EditorValue)
| CallOnCancel (f : Callback).

Record World := mkWorld {
  dom : Dom;
  quills : list Quill;
  cells : gmap CellId (option QuillId);
  trace : list Call
}.

(** ** The component's own cells *)

(** The closure returned by the creation effect; it captures the local
    constant [container]. *)
Record Cleanup := mkCleanup {
  cl_container : option NodeId
}.

(** One field per [useRef] call, in source order. *)
Record Hooks := mkHooks {
  submitRef : Callback;
  placeholderRef : string;
  quillRef : option QuillId;
  defaultValueRef : DefaultValue;
  containerRef : option NodeId;
  disabledRef : bool
}.

(** Everything component code can read or write. *)
Record Env := mkEnv {
  refs : Hooks;
  world : World
}.

(** ** Effectful code: state plus exceptions *)

Inductive Error :=
| TypeError (msg : string).

Inductive Result (A : Type) :=
| Ok (a : A)
| Throw (e : Error).
Arguments Ok {A} a.
Arguments Throw {A} e.

Definition M (A : Type) : Type := Env -> Result (A * Env).

Definition ret {A} (a : A) : M A := fun e => Ok (a, e).

Definition bind {A B} (m : M A) (k : A -> M B) : M B :=
  fun e => match m e with
           | Ok (a, e') => k a e'
           | Throw err => Throw err
           end.

Definition throw {A} (err : Error) : M A := fun _ => Throw err.

Notation "x <- m ;; k" := (bind m (fun x => k))
  (at level 100, m at next level, right associativity).
Notation "m ;;; k" := (bind m (fun _ => k))
  (at level 100, right associativity).

Definition get_world : M World := fun e => Ok (world e, e).
Definition put_world (w : World) : M unit :=
  fun e => Ok (tt, mkEnv (refs e) w).
Definition get_refs : M Hooks := fun e => Ok (refs e, e).
Definition put_refs (h : Hooks) : M unit :=
  fun e => Ok (tt, mkEnv h (world e)).

Definition log (c : Call) : M unit :=
  w <- get_world ;;
  put_world (mkWorld (dom w) (quills w) (cells w) (trace w ++ [c])).

Definition put_dom (d : Dom) : M unit :=
  w <- get_world ;;
  put_world (mkWorld d (quills w) (cells w) (trace w)).

(** ** DOM and widget primitives *)

(** [ownerDocument.createElement(tagName)]: a fresh, detached, empty
    element. *)
Definition createElement (tagName : string) : M NodeId :=
  w <- get_world ;;
  let id := length (dom w) in
  put_dom (dom w ++ [mkNode tagName "" []]) ;;;
  log (CallCreateElement tagName id) ;;;
  ret id.

(** [parent.appendChild(child)] returns the appended child. *)
Definition appendChild (parent child : NodeId) : M NodeId :=
  w <- get_world ;;
  match dom w !! parent with
  | None => throw (TypeError "appendChild: no such element")
  | Some n =>
      put_dom (<[parent := mkNode (tag n) (className n) (children n ++ [child])]> (dom w)) ;;;
      log (CallAppendChild parent child) ;;;
      ret child
  end.

(** [el.innerHTML = ""]: the only assignment to [innerHTML] in the
    component; the element loses every child. *)
Definition clearInnerHTML (el : NodeId) : M unit :=
  w <- get_world ;;
  match dom w !! el with
  | None => throw (TypeError "innerHTML: no such element")
  | Some n =>
      put_dom (<[el := mkNode (tag n) (className n) []]> (dom w)) ;;;
      log (CallSetInnerHTML el "")
  end.

(** ** Element trees *)

Inductive Icon := PiTextAa | Smile | ImageIcon | MdSend.

(** The props this file passes to [Button] from [./ui/button]. *)
Record ButtonProps := mkButtonProps {
  btn_disabled : bool;
  btn_size : option string;
  btn_variant : option string;
  btn_className : option string;
  btn_onClick : M unit
}.

(** The cell a [ref] attribute names. *)
Inductive RefSlot := ContainerRef.

(** What a render returns.  [VFalse] is the child [false] left by an
    unsatisfied [cond && <jsx/>]; React renders nothing for it. *)
#[warnings="-register-all"]
Inductive VNode :=
| VFalse
| VText (s : string)
| VElem (tagName : string) (cls : string) (ref : option RefSlot) (kids : list VNode)
| VHint (label : string) (kids : list VNode)
| VButton (bp : ButtonProps) (kids : list VNode)
| VIcon (i : Icon) (cls : string).

(** JSX's [cond && element]. *)
Definition jsx_and (cond : bool) (v : VNode) : VNode :=
  if cond then v else VFalse.

(** ** Props *)

(** [interface EditorProps]; an optional prop left out is [None]. *)
Record EditorProps := mkEditorProps {
  onSubmit : Callback;
  onCancel : option Callback;
  placeholder : option string;
  defaultValue : option DefaultValue;
  disabled : option bool;
  innerRef : option CellId;
  variant : option Variant
}.

(** ** Hooks *)

(** A value in a dependency array. *)
Inductive Dep :=
| DepCallback (f : Callback)
| DepString (s : string)
| DepBool (b : bool)
| DepValue (dv : DefaultValue).

#[global] Instance Dep_eq_dec : EqDecision Dep.
Proof. solve_decision. Defined.

(** An effect handed to [useEffect] / [useLayoutEffect]: its body, which
    may return a cleanup, and its dependency array ([None] when the
    second argument is omitted). *)
Record EffectHook := mkEffectHook {
  eff_create : M (option Cleanup);
  eff_deps : option (list Dep)
}.

(** [useRef(initial)]: the cell of the previous render if there is one,
    otherwise a new cell holding [initial]. *)
Definition useRef {A} (prev : option A) (initial : A) : A :=
  default initial prev.

Definition set_submitRef (v : Callback) : M unit :=
  h <- get_refs ;;
  put_refs (mkHooks v (placeholderRef h) (quillRef h) (defaultValueRef h)
                    (containerRef h) (disabledRef h)).

Definition set_placeholderRef (v : string) : M unit :=
  h <- get_refs ;;
  put_refs (mkHooks (submitRef h) v (quillRef h) (defaultValueRef h)
                    (containerRef h) (disabledRef h)).

Definition set_defaultValueRef (v : DefaultValue) : M unit :=
  h <- get_refs ;;
  put_refs (mkHooks (submitRef h) (placeholderRef h) (quillRef h) v
                    (containerRef h) (disabledRef h)).

Definition set_containerRef (v : option NodeId) : M unit :=
  h <- get_refs ;;
  put_refs (mkHooks (submitRef h) (placeholderRef h) (quillRef h)
                    (defaultValueRef h) v (disabledRef h)).

Definition set_disabledRef (v : bool) : M unit :=
  h <- get_refs ;;
  put_refs (mkHooks (submitRef h) (placeholderRef h) (quillRef h)
                    (defaultValueRef h) (containerRef h) v).

(** [containerRef.current] *)
Definition read_containerRef : M (option NodeId) :=
  h <- get_refs ;;
  ret (containerRef h).

(** One call of the component function: the cells after its [useRef]
    calls, the two effects it registers and the tree it returns. *)
Record Rendered := mkRendered {
  r_refs : Hooks;
  r_layoutEffect : EffectHook;
  r_effect : EffectHook;
  r_tree : VNode
}.

(** [onClick={() => {}}] *)
Definition noop : M unit := ret tt.

Section Component.

Context `{QuillLib}.

(** [new Quill(el, options)] *)
Definition newQuill (el : NodeId) (o : QuillOptions) : M QuillId :=
  w <- get_world ;;
  let q := mkQuill el o (quill_document el o (dom w)) in
  let id := length (quills w) in
  put_world (mkWorld (quill_render el o (dom w)) (quills w ++ [q]) (cells w)
                     (trace w ++ [CallNewQuill el o])) ;;;
  ret id.

(** The cleanup closure of the creation effect (lines 65-69). *)
Definition run_cleanup (c : Cleanup) : M unit :=
  match cl_container c with
  | Some container => clearInnerHTML container
  | None => ret tt
  end.

(** [const Editor = ({...}: EditorProps) => {...}] *)
Definition Editor (props : EditorProps) (prev : option Hooks) : Rendered :=
  let onCancel := onCancel props in
  let onSubmit := onSubmit props in
  let placeholder := default "Write something..." (placeholder props) in
  let defaultValue := default (DVOps []) (defaultValue props) in
  let disabled := default false (disabled props) in
  let innerRef := innerRef props in
  let variant := default create (variant props) in

  let submitRef := useRef (submitRef <$> prev) onSubmit in
  let placeholderRef := useRef (placeholderRef <$> prev) placeholder in
  let quillRef := useRef (quillRef <$> prev) None in
  let defaultValueRef := useRef (defaultValueRef <$> prev) defaultValue in
  let containerRef := useRef (containerRef <$> prev) None in
  let disabledRef := useRef (disabledRef <$> prev) disabled in

  let layoutEffect :=
    mkEffectHook
      (set_submitRef onSubmit ;;;
       set_placeholderRef placeholder ;;;
       set_defaultValueRef defaultValue ;;;
       set_disabledRef disabled ;;;
       ret None)
      None in

  let effect :=
    mkEffectHook
      (current <- read_containerRef ;;
       match current with
       | None => ret None
       | Some container =>
           fresh_div <- createElement "div" ;;
           editorContainer <- appendChild container fresh_div ;;
           let options := mkQuillOptions (Some "snow") None None in
           _ <- newQuill editorContainer options ;;
           ret (Some (mkCleanup (Some container)))
       end)
      (Some []) in

  mkRendered
    (mkHooks submitRef placeholderRef quillRef defaultValueRef containerRef disabledRef)
    layoutEffect
    effect
    (VElem "div" "flex flex-col" None [
      VElem "div" "flex flex-col border border-slate-200 rounded-md overflow-hidden focus-within:border-slate-300 focus-within:shadow-sm transition bg-white" None [
        VElem "div" "h-full ql-custom" (Some ContainerRef) [];
        VElem "div" "flex px-2 pb-2 z-5" None [
          VHint "Hide formatting" [
            VButton (mkButtonProps false (Some "icon-sm") (Some "ghost") None noop)
                    [VIcon PiTextAa "size-4"]];
          VHint "Emoji" [
            VButton (mkButtonProps false (Some "icon-sm") (Some "ghost") None noop)
                    [VIcon Smile "size-4"]];
          jsx_and (variant_eqb variant create)
            (VHint "Image" [
              VButton (mkButtonProps false (Some "icon-sm") (Some "ghost") None noop)
                      [VIcon ImageIcon "size-4"]]);
          jsx_and (variant_eqb variant update)
            (VElem "div" "ml-auto flex items-center gap-x-2" None [
              VButton (mkButtonProps false (Some "sm") (Some "outline") None noop)
                      [VText "Cancel"];
              VButton (mkButtonProps false (Some "sm") None
                         (Some "bg-[#007a5a] hover:bg-[007a5a]/80 text-white") noop)
                      [VText "Save"]]);
          jsx_and (variant_eqb variant create)
            (VButton (mkButtonProps false (Some "icon-sm") None
                        (Some "ml-auto bg-[#007a5a] hover:bg-[007a5a]/80 text-white") noop)
                     [VIcon MdSend "size-4"])
        ]
      ];
      VElem "div" "p-2 text-[10px] text-muted-foreground flex justify-end" None [
        VElem "p" "" None [
          VElem "strong" "" None [VText "Shift + Return"];
          VText " to add a new line"
        ]
      ]
    ]).

(** ** React: mounting, updating, unmounting *)

(** The host elements of a tree that carry a [ref] attribute, with
    their tag and class, in document order. *)
Fixpoint ref_hosts (v : VNode) : list (RefSlot * string * string) :=
  match v with
  | VElem t c r kids =>
      match r with Some slot => [(slot, t, c)] | None => [] end
      ++ flat_map ref_hosts kids
  | VHint _ kids | VButton _ kids => flat_map ref_hosts kids
  | VFalse | VText _ | VIcon _ _ => []
  end.

(** React creates the host element itself; this is not a call made by
    the component, so it leaves no entry in the trace. *)
Definition host_create (t c : string) : M NodeId :=
  w <- get_world ;;
  put_dom (dom w ++ [mkNode t c []]) ;;;
  ret (length (dom w)).

Definition attach_ref (slot : RefSlot) (v : option NodeId) : M unit :=
  match slot with
  | ContainerRef => set_containerRef v
  end.

(** Commit of a first render: every element with a [ref] gets its DOM
    node and the cell is pointed at it. *)
Fixpoint commit_refs (hosts : list (RefSlot * string * string)) : M unit :=
  match hosts with
  | [] => ret tt
  | (slot, t, c) :: rest =>
      id <- host_create t c ;;
      attach_ref slot (Some id) ;;;
      commit_refs rest
  end.

(** Unmount nulls every attached cell. *)
Fixpoint detach_refs (hosts : list (RefSlot * string * string)) : M unit :=
  match hosts with
  | [] => ret tt
  | (slot, _, _) :: rest => attach_ref slot None ;;; detach_refs rest
  end.

(** What React remembers of an effect between renders. *)
Record EffectState := mkEffectState {
  es_cleanup : option Cleanup;
  es_deps : option (list Dep)
}.

(** An effect re-runs when it has no dependency array or when some
    dependency differs from the previous render's. *)
Definition deps_changed (prev next : option (list Dep)) : bool :=
  match prev, next with
  | Some ps, Some ns => negb (bool_decide (ps = ns))
  | _, _ => true
  end.

Definition run_cleanup_opt (c : option Cleanup) : M unit :=
  match c with
  | Some cl => run_cleanup cl
  | None => ret tt
  end.

Definition run_effect (prev : option EffectState) (eff : EffectHook) : M EffectState :=
  match prev with
  | None =>
      c <- eff_create eff ;;
      ret (mkEffectState c (eff_deps eff))
  | Some st =>
      if deps_changed (es_deps st) (eff_deps eff)
      then run_cleanup_opt (es_cleanup st) ;;;
           c <- eff_create eff ;;
           ret (mkEffectState c (eff_deps eff))
      else ret st
  end.

(** A mounted component instance. *)
Record Mounted := mkMounted {
  memoizedProps : EditorProps;
  layoutState : EffectState;
  effectState : EffectState;
  env : Env
}.

(** First render up to the paint: render, commit (refs attached),
    layout effects. *)
Definition mount_commit (r : Rendered) : M EffectState :=
  commit_refs (ref_hosts (r_tree r)) ;;;
  run_effect None (r_layoutEffect r).

(** Passive effects of the first render, after the paint. *)
Definition mount_passive (r : Rendered) : M EffectState :=
  run_effect None (r_effect r).

Definition mount (props : EditorProps) (w : World) : Result Mounted :=
  let r := Editor props None in
  match (ls <- mount_commit r ;;
         es <- mount_passive r ;;
         ret (ls, es)) (mkEnv (r_refs r) w) with
  | Ok ((ls, es), e) => Ok (mkMounted props ls es e)
  | Throw err => Throw err
  end.

(** The environment the browser paints after the first render. *)
Definition mount_painted (props : EditorProps) (w : World) : Result Env :=
  let r := Editor props None in
  match mount_commit r (mkEnv (r_refs r) w) with
  | Ok (_, e) => Ok e
  | Throw err => Throw err
  end.

(** A later render with new props. *)
Definition rerender_commit (r : Rendered) (m : Mounted) : M EffectState :=
  run_effect (Some (layoutState m)) (r_layoutEffect r).

Definition rerender_passive (r : Rendered) (m : Mounted) : M EffectState :=
  run_effect (Some (effectState m)) (r_effect r).

Definition rerender (props : EditorProps) (m : Mounted) : Result Mounted :=
  let r := Editor props (Some (refs (env m))) in
  match (ls <- rerender_commit r m ;;
         es <- rerender_passive r m ;;
         ret (ls, es)) (mkEnv (r_refs r) (world (env m))) with
  | Ok ((ls, es), e) => Ok (mkMounted props ls es e)
  | Throw err => Throw err
  end.

Definition rerender_painted (props : EditorProps) (m : Mounted) : Result Env :=
  let r := Editor props (Some (refs (env m))) in
  match rerender_commit r m (mkEnv (r_refs r) (world (env m))) with
  | Ok (_, e) => Ok e
  | Throw err => Throw err
  end.

(** A sequence of later renders. *)
Fixpoint rerenders (ps : list EditorProps) (m : Mounted) : Result Mounted :=
  match ps with
  | [] => Ok m
  | p :: rest =>
      match rerender p m with
      | Ok m' => rerenders rest m'
      | Throw err => Throw err
      end
  end.

(** The tree currently on screen. *)
Definition current_tree (m : Mounted) : VNode :=
  r_tree (Editor (memoizedProps m) (Some (refs (env m)))).

(** Unmount: layout cleanups and ref detachment happen in the commit,
    the passive effect's cleanup runs afterwards. *)
Definition unmount (m : Mounted) : Result Env :=
  match (run_cleanup_opt (es_cleanup (layoutState m)) ;;;
         detach_refs (ref_hosts (current_tree m)) ;;;
         run_cleanup_opt (es_cleanup (effectState m))) (env m) with
  | Ok (_, e) => Ok e
  | Throw err => Throw err
  end.

End Component.

(** ** Buttons and clicks *)

(** The buttons of a tree with their children, in document order. *)
Fixpoint buttons (v : VNode) : list (ButtonProps * list VNode) :=
  match v with
  | VButton bp kids => (bp, kids) :: flat_map buttons kids
  | VElem _ _ _ kids | VHint _ kids => flat_map buttons kids
  | VFalse | VText _ | VIcon _ _ => []
  end.

(** The six actions of the toolbar. *)
Inductive Action :=
| ToggleFormatting | EmojiPicker | AttachImage | CancelEdit | SaveEdit | SendMessage.

#[global] Instance Action_eq_dec : EqDecision Action.
Proof. solve_decision. Defined.

(** A button is recognised by what it shows: its icon or its caption. *)
Definition action_of_face (face : list VNode) : option Action :=
  match face with
  | [VIcon PiTextAa _] => Some ToggleFormatting
  | [VIcon Smile _] => Some EmojiPicker
  | [VIcon ImageIcon _] => Some AttachImage
  | [VIcon MdSend _] => Some SendMessage
  | [VText "Cancel"] => Some CancelEdit
  | [VText "Save"] => Some SaveEdit
  | _ => None
  end.

Definition shows (a : Action) (b : ButtonProps * list VNode) : bool :=
  bool_decide (action_of_face (snd b) = Some a).

(** The buttons of a tree that carry out action [a]. *)
Definition buttons_for (a : Action) (v : VNode) : list ButtonProps :=
  fst <$> filter (fun b => shows a b = true) (buttons v).

Definition present (a : Action) (v : VNode) : bool :=
  bool_decide (buttons_for a v <> []).

(** The actions on offer, left to right. *)
Definition actions (v : VNode) : list Action :=
  omap (fun b => action_of_face (snd b)) (buttons v).

(** A click on a [Button]: a disabled button swallows it, otherwise its
    [onClick] runs. *)
Definition press (bp : ButtonProps) : M unit :=
  if btn_disabled bp then ret tt else btn_onClick bp.

(** The user clicks the button for action [a]; an action that is not on
    screen cannot be clicked. *)
Definition click `{QuillLib} (a : Action) (m : Mounted) : Result Mounted :=
  match buttons_for a (current_tree m) with
  | [] => Ok m
  | bp :: _ =>
      match press bp (env m) with
      | Ok (_, e) => Ok (mkMounted (memoizedProps m) (layoutState m) (effectState m) e)
      | Throw err => Throw err
      end
  end.

Fixpoint clicks `{QuillLib} (l : list Action) (m : Mounted) : Result Mounted :=
  match l with
  | [] => Ok m
  | a :: rest =>
      match click a m with
      | Ok m' => clicks rest m'
      | Throw err => Throw err
      end
  end.

(** ** A widget to run the component against *)

(** A small stand-in for Quill with the snow theme: the container gets
    the widget's classes and an editing root, a toolbar is put before
    the container in the container's parent, and the first document is
    the blank line Quill starts from. *)
Definition parent_of (el : NodeId) (d : Dom) : option NodeId :=
  fst <$> head (filter (fun x => bool_decide (el ∈ children (snd x))) (imap pair d)).

Definition snow_render (el : NodeId) (o : QuillOptions) (d : Dom) : Dom :=
  let root := length d in
  let toolbar := S (length d) in
  let d1 := d ++ [mkNode "div" "ql-editor ql-blank" []; mkNode "div" "ql-toolbar ql-snow" []] in
  let d2 := alter (fun n => mkNode (tag n) "ql-container ql-snow" (children n ++ [root])) el d1 in
  match parent_of el d with
  | Some p => alter (fun n => mkNode (tag n) (className n) (toolbar :: children n)) p d2
  | None => d2
  end.

Definition snow_document (el : NodeId) (o : QuillOptions) (d : Dom) : list Op :=
  [OpInsert (String (Ascii.ascii_of_nat 10) EmptyString)].

#[global] Program Instance snow_quill : QuillLib := {|
  quill_render := snow_render;
  quill_document := snow_document
|}.
Next Obligation.
  intros el o d. unfold snow_render.
  destruct (parent_of el d); rewrite ?length_alter, length_app; simpl; lia.
Qed.


(** ** Vocabulary of the statements *)

(** The props as the component body sees them, defaults applied. *)
Definition placeholder_of (props : EditorProps) : string :=
  default "Write something..." (placeholder props).
Definition defaultValue_of (props : EditorProps) : DefaultValue :=
  default (DVOps []) (defaultValue props).
Definition disabled_of (props : EditorProps) : bool :=
  default false (disabled props).
Definition variant_of (props : EditorProps) : Variant :=
  default create (variant props).

Definition snow_options : QuillOptions := mkQuillOptions (Some "snow") None None.

(** The DOM at the moment the widget is constructed, starting a mount
    from heap [d]: the container React made, holding one fresh [div]. *)
Definition dom_before_widget (d : Dom) : Dom :=
  <[length d := mkNode "div" "h-full ql-custom" [S (length d)]]>
    ((d ++ [mkNode "div" "h-full ql-custom" []]) ++ [mkNode "div" "" []]).

(** The cells after the layout effect of a render with [props]. *)
Definition sync_refs (props : EditorProps) (h : Hooks) : Hooks :=
  mkHooks (onSubmit props) (placeholder_of props) (quillRef h)
          (defaultValue_of props) (containerRef h) (disabled_of props).

(** The world after the creation effect ran against container [c],
    whose node was [n]. *)
Definition world_after_creation `{QuillLib} (c : NodeId) (n : Node) (w : World) : World :=
  let el := length (dom w) in
  let d1 := <[c := mkNode (tag n) (className n) (children n ++ [el])]>
              (dom w ++ [mkNode "div" "" []]) in
  mkWorld (quill_render el snow_options d1)
          (quills w ++ [mkQuill el snow_options (quill_document el snow_options d1)])
          (cells w)
          (trace w ++ [CallCreateElement "div" el; CallAppendChild c el;
                       CallNewQuill el snow_options]).

(** [props] with another [defaultValue]. *)
Definition with_defaultValue (dv : option DefaultValue) (props : EditorProps) : EditorProps :=
  mkEditorProps (onSubmit props) (onCancel props) (placeholder props) dv
                (disabled props) (innerRef props) (variant props).

(** The widget a mount from world [w] constructs. *)
Definition mounted_widget `{QuillLib} (w : World) : Quill :=
  mkQuill (S (length (dom w))) snow_options
          (quill_document (S (length (dom w))) snow_options (dom_before_widget (dom w))).

(** "The widget created on mount starts with [defaultValue] as its
    content." *)
Definition seeds_widget `{QuillLib} (props : EditorProps) (w : World) : Prop :=
  forall m, mount props w = Ok m ->
    exists q, last (quills (world (env m))) = Some q /\
              q_contents q = ops_of (defaultValue_of props).

(** "The widget created on mount is stored in the parent's cell." *)
Definition stores_widget `{QuillLib} (props : EditorProps) (w : World) : Prop :=
  forall m cell, mount props w = Ok m -> innerRef props = Some cell ->
    cells (world (env m)) !! cell = Some (Some (length (quills w))).

(** *** Sample inputs *)

Definition world0 : World := mkWorld [] [] ∅ [].

Definition props_create : EditorProps :=
  mkEditorProps 1 None None None None None (Some create).

Definition props_update : EditorProps :=
  mkEditorProps 2 (Some 3) (Some "Edit message") (Some (DVDelta [OpInsert "old text"]))
                (Some true) (Some 5) (Some update).

(** An "update" editor with every other prop different from
    [props_update]. *)
Definition props_update_other : EditorProps :=
  mkEditorProps 9 None None (Some (DVOps [])) (Some false) None (Some update).

Definition props_hello : EditorProps :=
  mkEditorProps 1 None None (Some (DVOps [OpInsert "hello"])) None None None.

(** A parent that passes cell 5, currently holding [null]. *)
Definition props_with_ref : EditorProps :=
  mkEditorProps 1 None None None None (Some 5) None.

Definition world_with_ref : World := mkWorld [] [] {[5 := None]} [].

(** An environment whose [containerRef] was never attached. *)
Definition env_unattached : Env :=
  mkEnv (mkHooks 1 "Write something..." None (DVOps []) None false) world0.

(** *** Whole lives and several editors *)

(** What can happen to a mounted editor before it is unmounted: the
    parent renders it again, or the user clicks one of its buttons. *)
Inductive Step :=
| StepRender (props : EditorProps)
| StepClick (a : Action).

Definition step `{QuillLib} (s : Step) (m : Mounted) : Result Mounted :=
  match s with
  | StepRender props => rerender props m
  | StepClick a => click a m
  end.

Fixpoint steps `{QuillLib} (l : list Step) (m : Mounted) : Result Mounted :=
  match l with
  | [] => Ok m
  | s :: rest =>
      match step s m with
      | Ok m' => steps rest m'
      | Throw err => Throw err
      end
  end.

(** A whole life: mount, the steps, unmount. *)
Definition life `{QuillLib} (props : EditorProps) (l : list Step) (w : World) : Result Env :=
  match mount props w with
  | Ok m =>
      match steps l m with
      | Ok m' => unmount m'
      | Throw err => Throw err
      end
  | Throw err => Throw err
  end.

(** An instance seen in a later state of the world it shares with
    other components: its cells and effect records are its own. *)
Definition in_world (w : World) (m : Mounted) : Mounted :=
  mkMounted (memoizedProps m) (layoutState m) (effectState m) (mkEnv (refs (env m)) w).

(** [props] with every optional prop that has a default written out. *)
Definition explicit_defaults (props : EditorProps) : EditorProps :=
  mkEditorProps (onSubmit props) (onCancel props)
                (Some (default "Write something..." (placeholder props)))
                (Some (default (DVOps []) (defaultValue props)))
                (Some (default false (disabled props)))
                (innerRef props)
                (Some (default create (variant props))).



Ltac unfold_M :=
  unfold bind, ret, throw, createElement, appendChild, clearInnerHTML, newQuill,
    host_create, attach_ref, set_containerRef, read_containerRef, set_submitRef,
    set_placeholderRef, set_defaultValueRef, set_disabledRef, put_dom, log,
    get_world, put_world, get_refs, put_refs, noop in *.

(** The four latest-value cells agree with the props of a render. *)
Definition synced (props : EditorProps) (h : Hooks) : Prop :=
  submitRef h = onSubmit props /\
  placeholderRef h = placeholder_of props /\
  defaultValueRef h = defaultValue_of props /\
  disabledRef h = disabled_of props.

(** A mounted instance whose creation effect ran against container [c]:
    the cleanup capturing [c] is registered under the empty dependency
    array, and [c] is an element of the DOM. *)
Definition mounted_on (c : NodeId) (m : Mounted) : Prop :=
  es_cleanup (layoutState m) = None /\
  effectState m = mkEffectState (Some (mkCleanup (Some c))) (Some []) /\
  c < length (dom (world (env m))).

(** The props a sequence of renders ends with. *)
Definition last_props (ps : list EditorProps) (first : EditorProps) : EditorProps :=
  List.last ps first.

Section Proofs.
Context `{QuillLib}.

(** *** The render itself *)

Lemma Editor_ref_hosts (props : EditorProps) (prev : option Hooks) :
  ref_hosts (r_tree (Editor props prev)) = [(ContainerRef, "div", "h-full ql-custom")].
Proof. cbn. destruct (default create (variant props)); reflexivity. Qed.

Lemma Editor_refs_again (props : EditorProps) (h : Hooks) :
  r_refs (Editor props (Some h)) = h.
Proof. destruct h; reflexivity. Qed.

Lemma Editor_deps (props : EditorProps) (prev : option Hooks) :
  eff_deps (r_layoutEffect (Editor props prev)) = None /\
  eff_deps (r_effect (Editor props prev)) = Some [].
Proof. split; reflexivity. Qed.

(** *** The creation effect and its cleanup *)

Lemma creation_effect_null (props : EditorProps) (prev : option Hooks) (e : Env) :
  containerRef (refs e) = None ->
  eff_create (r_effect (Editor props prev)) e = Ok (None, e).
Proof.
  intros Hnull. cbn. unfold_M. cbn. rewrite Hnull. reflexivity.
Qed.

Lemma creation_effect_run (props : EditorProps) (prev : option Hooks) (e : Env)
    (c : NodeId) (n : Node) :
  containerRef (refs e) = Some c ->
  dom (world e) !! c = Some n ->
  eff_create (r_effect (Editor props prev)) e =
  Ok (Some (mkCleanup (Some c)), mkEnv (refs e) (world_after_creation c n (world e))).
Proof.
  intros Href Hnode. cbn. unfold_M. cbn. rewrite Href. cbn.
  rewrite lookup_app_l by (eapply lookup_lt_Some; eassumption).
  rewrite Hnode. repeat (progress (unfold_M; cbn)).
  unfold world_after_creation, snow_options. cbn.
  rewrite <- !(app_assoc (trace (world e))). reflexivity.
Qed.

Lemma cleanup_run (c : NodeId) (n : Node) (e : Env) :
  dom (world e) !! c = Some n ->
  run_cleanup (mkCleanup (Some c)) e =
  Ok (tt, mkEnv (refs e)
            (mkWorld (<[c := mkNode (tag n) (className n) []]> (dom (world e)))
                     (quills (world e)) (cells (world e))
                     (trace (world e) ++ [CallSetInnerHTML c ""]))).
Proof.
  intros Hnode. unfold run_cleanup. cbn. unfold_M. cbn. rewrite Hnode. reflexivity.
Qed.

(** *** Mounting *)

Lemma mount_commit_run (props : EditorProps) (w : World) :
  mount_commit (Editor props None) (mkEnv (r_refs (Editor props None)) w) =
  Ok (mkEffectState None None,
      mkEnv (mkHooks (onSubmit props) (placeholder_of props) None
                     (defaultValue_of props) (Some (length (dom w))) (disabled_of props))
            (mkWorld (dom w ++ [mkNode "div" "h-full ql-custom" []])
                     (quills w) (cells w) (trace w))).
Proof.
  unfold mount_commit. rewrite Editor_ref_hosts. reflexivity.
Qed.

Lemma mount_eq (props : EditorProps) (w : World) :
  mount props w =
  Ok (mkMounted props
        (mkEffectState None None)
        (mkEffectState (Some (mkCleanup (Some (length (dom w))))) (Some []))
        (mkEnv
           (mkHooks (onSubmit props) (placeholder_of props) None
                    (defaultValue_of props) (Some (length (dom w))) (disabled_of props))
           (world_after_creation (length (dom w)) (mkNode "div" "h-full ql-custom" [])
              (mkWorld (dom w ++ [mkNode "div" "h-full ql-custom" []])
                       (quills w) (cells w) (trace w))))).
Proof.
  unfold mount. unfold bind at 1. rewrite mount_commit_run.
  unfold mount_passive, run_effect, bind.
  erewrite creation_effect_run; [reflexivity | reflexivity |].
  cbn. apply list_lookup_middle. reflexivity.
Qed.


Lemma mount_mounted_on (props : EditorProps) (w : World) (m : Mounted) :
  mount props w = Ok m -> mounted_on (length (dom w)) m.
Proof.
  rewrite mount_eq. intros [= <-]. repeat split. cbn.
  eapply Nat.lt_le_trans; [| apply quill_render_keeps].
  rewrite length_insert, !length_app. cbn. lia.
Qed.

(** *** Later renders *)

Lemma run_layout_again (props : EditorProps) (prev : option Hooks)
    (st : EffectState) (e : Env) :
  es_cleanup st = None ->
  run_effect (Some st) (r_layoutEffect (Editor props prev)) e =
  Ok (mkEffectState None None, mkEnv (sync_refs props (refs e)) (world e)).
Proof.
  intros Hnone. unfold run_effect.
  replace (deps_changed (es_deps st) (eff_deps (r_layoutEffect (Editor props prev))))
    with true by (destruct (es_deps st); reflexivity).
  rewrite Hnone. reflexivity.
Qed.

Lemma run_creation_again (props : EditorProps) (prev : option Hooks)
    (st : EffectState) (e : Env) :
  es_deps st = Some [] ->
  run_effect (Some st) (r_effect (Editor props prev)) e = Ok (st, e).
Proof.
  intros Hdeps. unfold run_effect. rewrite Hdeps. reflexivity.
Qed.

Lemma rerender_eq (props : EditorProps) (m : Mounted) :
  es_cleanup (layoutState m) = None ->
  es_deps (effectState m) = Some [] ->
  rerender props m =
  Ok (mkMounted props (mkEffectState None None) (effectState m)
        (mkEnv (sync_refs props (refs (env m))) (world (env m)))).
Proof.
  intros Hlayout Hdeps. unfold rerender, rerender_commit, rerender_passive, bind.
  rewrite run_layout_again by assumption.
  rewrite run_creation_again by assumption.
  rewrite Editor_refs_again. reflexivity.
Qed.

Lemma rerender_painted_eq (props : EditorProps) (m : Mounted) :
  es_cleanup (layoutState m) = None ->
  rerender_painted props m =
  Ok (mkEnv (sync_refs props (refs (env m))) (world (env m))).
Proof.
  intros Hlayout. unfold rerender_painted, rerender_commit.
  rewrite run_layout_again by assumption.
  rewrite Editor_refs_again. reflexivity.
Qed.

Lemma last_default_irrelevant {A} (x : A) (l : list A) (d d' : A) :
  List.last (x :: l) d = List.last (x :: l) d'.
Proof.
  revert x. induction l as [| y l IH]; intros x; [reflexivity |].
  change (List.last (y :: l) d = List.last (y :: l) d'). apply IH.
Qed.

Lemma rerenders_spec (ps : list EditorProps) (c : NodeId) (m : Mounted) :
  mounted_on c m ->
  synced (memoizedProps m) (refs (env m)) ->
  exists m',
    rerenders ps m = Ok m' /\
    mounted_on c m' /\
    synced (memoizedProps m') (refs (env m')) /\
    memoizedProps m' = last_props ps (memoizedProps m) /\
    world (env m') = world (env m) /\
    quillRef (refs (env m')) = quillRef (refs (env m)) /\
    containerRef (refs (env m')) = containerRef (refs (env m)).
Proof.
  revert m. induction ps as [| p ps IH]; intros m Hon Hsync.
  - exists m. repeat split; try reflexivity; try apply Hon; apply Hsync.
  - destruct Hon as (Hlayout & Heff & Hlen). cbn [rerenders].
    rewrite rerender_eq by (try assumption; rewrite Heff; reflexivity).
    set (m1 := mkMounted _ _ _ _).
    destruct (IH m1) as (m' & Hrun & Hon' & Hsync' & Hprops & Hworld & Hq & Hc).
    + repeat split; assumption.
    + repeat split.
    + exists m'. split; [exact Hrun |]. split; [exact Hon' |].
      split; [exact Hsync' |]. split; [| repeat split; assumption].
      rewrite Hprops. unfold last_props. destruct ps as [| q qs]; [reflexivity |].
      change (List.last (p :: q :: qs) (memoizedProps m))
        with (List.last (q :: qs) (memoizedProps m)).
      apply last_default_irrelevant.
Qed.

(** *** Unmounting *)

Lemma unmount_eq (c : NodeId) (n : Node) (m : Mounted) :
  mounted_on c m ->
  dom (world (env m)) !! c = Some n ->
  unmount m =
  Ok (mkEnv (mkHooks (submitRef (refs (env m))) (placeholderRef (refs (env m)))
                     (quillRef (refs (env m))) (defaultValueRef (refs (env m)))
                     None (disabledRef (refs (env m))))
            (mkWorld (<[c := mkNode (tag n) (className n) []]> (dom (world (env m))))
                     (quills (world (env m))) (cells (world (env m)))
                     (trace (world (env m)) ++ [CallSetInnerHTML c ""]))).
Proof.
  intros (Hlayout & Heff & _) Hnode. unfold unmount, current_tree.
  rewrite Hlayout, Heff, Editor_ref_hosts. cbn [es_cleanup run_cleanup_opt detach_refs].
  unfold bind at 1. cbn [ret]. unfold bind at 1.
  change ((attach_ref ContainerRef None;;; ret ()) (env m))
    with (Ok (tt, mkEnv (mkHooks (submitRef (refs (env m))) (placeholderRef (refs (env m)))
                     (quillRef (refs (env m))) (defaultValueRef (refs (env m)))
                     None (disabledRef (refs (env m)))) (world (env m)))).
  cbn iota. erewrite cleanup_run by exact Hnode. reflexivity.
Qed.


(** *** Mounting, restated on the element ids *)

Lemma mount_world (props : EditorProps) (w : World) (m : Mounted) :
  mount props w = Ok m ->
  memoizedProps m = props /\
  refs (env m) = mkHooks (onSubmit props) (placeholder_of props) None
                         (defaultValue_of props) (Some (length (dom w))) (disabled_of props) /\
  world (env m) =
    mkWorld (quill_render (S (length (dom w))) snow_options (dom_before_widget (dom w)))
            (quills w ++ [mounted_widget w])
            (cells w)
            (trace w ++ [CallCreateElement "div" (S (length (dom w)));
                         CallAppendChild (length (dom w)) (S (length (dom w)));
                         CallNewQuill (S (length (dom w))) snow_options]).
Proof.
  rewrite mount_eq. intros [= <-]. split; [reflexivity |]. split; [reflexivity |].
  cbn [env world]. unfold world_after_creation, mounted_widget, dom_before_widget.
  cbn [dom quills cells trace tag className children app].
  rewrite length_app. cbn [length]. rewrite Nat.add_1_r. reflexivity.
Qed.

Lemma mount_total (props : EditorProps) (w : World) :
  exists m, mount props w = Ok m.
Proof. rewrite mount_eq. eexists. reflexivity. Qed.

Lemma mount_synced (props : EditorProps) (w : World) (m : Mounted) :
  mount props w = Ok m -> synced (memoizedProps m) (refs (env m)).
Proof.
  intros Hm. destruct (mount_world _ _ _ Hm) as (-> & -> & _). repeat split.
Qed.

(** Mount, then any number of renders: the outcome exists and is
    described by [rerenders_spec]. *)
Lemma lifecycle (props : EditorProps) (w : World) (ps : list EditorProps) :
  exists m m',
    mount props w = Ok m /\
    rerenders ps m = Ok m' /\
    mounted_on (length (dom w)) m' /\
    synced (memoizedProps m') (refs (env m')) /\
    memoizedProps m' = last_props ps props /\
    world (env m') = world (env m) /\
    quillRef (refs (env m')) = None /\
    containerRef (refs (env m')) = Some (length (dom w)).
Proof.
  destruct (mount_total props w) as [m Hm]. exists m.
  destruct (rerenders_spec ps (length (dom w)) m) as (m' & Hrun & Hon & Hsync & Hp & Hw & Hq & Hc).
  - eapply mount_mounted_on; eassumption.
  - eapply mount_synced; eassumption.
  - destruct (mount_world _ _ _ Hm) as (Hprops & Hrefs & _).
    exists m'. split; [exact Hm |]. split; [exact Hrun |]. split; [exact Hon |].
    split; [exact Hsync |]. rewrite Hq, Hc, Hp, Hprops, Hrefs. repeat split; assumption.
Qed.

(** *** The toolbar *)

Lemma actions_by_variant (props : EditorProps) (prev : option Hooks) :
  actions (r_tree (Editor props prev)) =
  match variant_of props with
  | create => [ToggleFormatting; EmojiPicker; AttachImage; SendMessage]
  | update => [ToggleFormatting; EmojiPicker; CancelEdit; SaveEdit]
  end.
Proof. cbn. unfold variant_of. destruct (default create (variant props)); reflexivity. Qed.

(** C1: in every render, variant "create" shows the send button and
    neither cancel nor save; variant "update" shows cancel and save and
    no send button; the attach-image button is shown exactly for
    "create"; the formatting toggle and the emoji button are shown for
    both variants. *)
Theorem C1_buttons_by_variant (props : EditorProps) (prev : option Hooks) :
  let tree := r_tree (Editor props prev) in
  (variant_of props = create ->
     present CancelEdit tree = false /\
     present SaveEdit tree = false /\
     present SendMessage tree = true) /\
  (variant_of props = update ->
     present CancelEdit tree = true /\
     present SaveEdit tree = true /\
     present SendMessage tree = false) /\
  (present AttachImage tree = true <-> variant_of props = create) /\
  present ToggleFormatting tree = true /\
  present EmojiPicker tree = true.
Proof.
  cbn zeta. cbn [Editor r_tree]. fold (variant_of props).
  destruct (variant_of props); vm_compute; intuition congruence.
Qed.

(** C8: whatever the [disabled] prop, every button of the rendered tree
    receives [disabled={false}]. *)
Theorem C8_buttons_never_disabled (props : EditorProps) (prev : option Hooks) :
  Forall (fun b => btn_disabled (fst b) = false) (buttons (r_tree (Editor props prev))) /\
  length (buttons (r_tree (Editor props prev))) = 4.
Proof.
  cbn [Editor r_tree]. destruct (default create (variant props)); cbn;
    (split; [repeat constructor | reflexivity]).
Qed.

(** C10: the rendered tree is a function of the variant alone: two
    renders whose variant agrees return the same tree, whatever their
    other props and whatever the state of the cells. *)
Theorem C10_tree_depends_on_variant_only
    (props1 props2 : EditorProps) (prev1 prev2 : option Hooks) :
  variant_of props1 = variant_of props2 ->
  r_tree (Editor props1 prev1) = r_tree (Editor props2 prev2).
Proof.
  intros Hv. cbn [Editor r_tree]. fold (variant_of props1) (variant_of props2).
  rewrite Hv. reflexivity.
Qed.

(** *** Clicks *)

Lemma handlers_inert (props : EditorProps) (prev : option Hooks) :
  Forall (fun b => forall e, press (fst b) e = Ok (tt, e))
         (buttons (r_tree (Editor props prev))).
Proof.
  cbn [Editor r_tree]. destruct (default create (variant props)); cbn;
    repeat constructor.
Qed.

Lemma click_inert (a : Action) (m : Mounted) : click a m = Ok m.
Proof.
  unfold click, buttons_for, current_tree.
  pose proof (handlers_inert (memoizedProps m) (Some (refs (env m)))) as Hall.
  destruct (buttons (r_tree (Editor (memoizedProps m) (Some (refs (env m))))))
    as [| b bs] eqn:Hb; [reflexivity |].
  set (hits := filter _ _).
  assert (Hsub : Forall (fun b => forall e, press (fst b) e = Ok (tt, e)) hits).
  { apply Forall_forall. intros x Hx. subst hits.
    apply list_elem_of_filter in Hx as [_ Hx].
    rewrite Forall_forall in Hall. apply Hall. exact Hx. }
  destruct hits as [| h hs]; [reflexivity |]. cbn [fmap list_fmap].
  inversion Hsub as [| ? ? Hh _]; subst. rewrite Hh. destruct m; reflexivity.
Qed.

(** C7: clicking is a no-op.  Any sequence of clicks on the action
    buttons of a mounted editor ends without error in the very state it
    started from: no cell, DOM node, widget or parent cell has changed
    and the trace has gained no call, in particular none of [onSubmit]
    or [onCancel]. *)
Theorem C7_clicks_are_noops (l : list Action) (m : Mounted) :
  clicks l m = Ok m.
Proof.
  induction l as [| a l IH]; [reflexivity |].
  cbn [clicks]. rewrite click_inert. exact IH.
Qed.

(** *** The creation effect *)

(** C4: a mount appends one fresh [div] to the container and constructs
    one widget on that [div] with theme "snow" and nothing else: these
    three calls are all the component adds to the trace.  The effect is
    registered under the empty dependency array, and no later render,
    whatever its props, runs it again: the world after the renders is
    the world after the mount. *)
Theorem C4_creation_runs_once (props : EditorProps) (w : World) (ps : list EditorProps) :
  exists m m',
    mount props w = Ok m /\
    rerenders ps m = Ok m' /\
    containerRef (refs (env m)) = Some (length (dom w)) /\
    dom_before_widget (dom w) !! length (dom w) =
      Some (mkNode "div" "h-full ql-custom" [S (length (dom w))]) /\
    dom_before_widget (dom w) !! S (length (dom w)) = Some (mkNode "div" "" []) /\
    trace (world (env m)) =
      trace w ++ [CallCreateElement "div" (S (length (dom w)));
                  CallAppendChild (length (dom w)) (S (length (dom w)));
                  CallNewQuill (S (length (dom w))) snow_options] /\
    quills (world (env m)) =
      quills w ++ [mkQuill (S (length (dom w))) snow_options
                     (quill_document (S (length (dom w))) snow_options
                        (dom_before_widget (dom w)))] /\
    es_deps (effectState m) = Some [] /\
    world (env m') = world (env m).
Proof.
  destruct (lifecycle props w ps) as (m & m' & Hm & Hrun & _ & _ & _ & Hw & _ & _).
  exists m, m'. destruct (mount_world _ _ _ Hm) as (_ & Hrefs & Hworld).
  pose proof (mount_mounted_on _ _ _ Hm) as (_ & Heff & _).
  rewrite Hrefs, Hworld, Heff. repeat split; try assumption.
  - unfold dom_before_widget. apply list_lookup_insert_eq.
    rewrite !length_app. cbn. lia.
  - unfold dom_before_widget. rewrite list_lookup_insert_ne by lia.
    rewrite lookup_app_r by (rewrite length_app; cbn; lia).
    rewrite length_app. cbn [length]. rewrite Nat.add_1_r, Nat.sub_diag. reflexivity.
  - rewrite Hw. exact Hworld.
Qed.

(** C2, as the code has it: the widget a mount constructs is built from
    the fresh [div] and the options [{ theme: "snow" }] alone.  The
    [defaultValue] prop reaches [defaultValueRef] and nothing else: the
    whole world after the mount, the widget and its document included,
    is the same for every [defaultValue], and later renders leave the
    widgets as they are. *)
Theorem C2_widget_ignores_defaultValue
    (props : EditorProps) (dv : option DefaultValue) (w : World) (ps : list EditorProps) :
  exists m1 m2 m',
    mount props w = Ok m1 /\
    mount (with_defaultValue dv props) w = Ok m2 /\
    world (env m1) = world (env m2) /\
    quills (world (env m2)) = quills w ++ [mounted_widget w] /\
    defaultValueRef (refs (env m2)) = default (DVOps []) dv /\
    rerenders ps m2 = Ok m' /\
    quills (world (env m')) = quills (world (env m2)).
Proof.
  destruct (mount_total props w) as [m1 Hm1].
  destruct (lifecycle (with_defaultValue dv props) w ps)
    as (m2 & m' & Hm2 & Hrun & _ & _ & _ & Hw & _ & _).
  exists m1, m2, m'.
  destruct (mount_world _ _ _ Hm1) as (_ & _ & Hw1).
  destruct (mount_world _ _ _ Hm2) as (_ & Hr2 & Hw2).
  rewrite Hw, Hw1, Hw2, Hr2. repeat split; assumption.
Qed.

(** Whatever the widget library does, it cannot show every
    [defaultValue]: the document of the mounted widget is one and the
    same for all of them. *)
Lemma no_library_seeds_every_value (props : EditorProps) (w : World) :
  ~ (forall dv, seeds_widget (with_defaultValue (Some dv) props) w).
Proof.
  intros Hall.
  pose (doc := q_contents (mounted_widget w)).
  specialize (Hall (DVOps (OpDelete 0 :: doc))).
  destruct (mount_total (with_defaultValue (Some (DVOps (OpDelete 0 :: doc))) props) w)
    as [m Hm].
  destruct (Hall m Hm) as (q & Hlast & Hdoc).
  destruct (mount_world _ _ _ Hm) as (_ & _ & Hw).
  rewrite Hw in Hlast. cbn [quills] in Hlast. rewrite last_snoc in Hlast.
  injection Hlast as <-. cbn in Hdoc. fold doc in Hdoc.
  apply (f_equal length) in Hdoc. cbn in Hdoc. lia.
Qed.

(** C3, as the code has it: the component never assigns [innerRef].
    Through mount, any number of renders and unmount the parent's cells
    keep the values the parent gave them, and the component's own
    [quillRef] stays [null]: the widget constructed on mount is kept in
    no cell. *)
Theorem C3_innerRef_never_assigned (props : EditorProps) (w : World) (ps : list EditorProps) :
  exists m m' e,
    mount props w = Ok m /\
    rerenders ps m = Ok m' /\
    unmount m' = Ok e /\
    length (quills (world (env m))) = S (length (quills w)) /\
    cells (world (env m)) = cells w /\
    cells (world (env m')) = cells w /\
    cells (world e) = cells w /\
    quillRef (refs (env m)) = None /\
    quillRef (refs (env m')) = None /\
    quillRef (refs e) = None.
Proof.
  destruct (lifecycle props w ps) as (m & m' & Hm & Hrun & Hon & _ & _ & Hw & Hq & _).
  destruct (mount_world _ _ _ Hm) as (_ & Hrefs & Hworld).
  pose proof Hon as (_ & _ & Hlen).
  destruct (lookup_lt_is_Some_2 _ _ Hlen) as [n Hn].
  exists m, m'. eexists. split; [exact Hm |]. split; [exact Hrun |].
  split; [apply (unmount_eq (length (dom w)) n); assumption |].
  cbn [world refs cells quillRef]. rewrite Hw, Hq, Hrefs, Hworld. cbn.
  rewrite length_app. cbn. repeat split. lia.
Qed.

(** *** The latest-value cells *)

(** C5: at the paint of every render, first or later, and still after
    its passive effects, [submitRef], [placeholderRef],
    [defaultValueRef] and [disabledRef] hold the [onSubmit],
    [placeholder], [defaultValue] and [disabled] of that render; this
    holds after any sequence [ps] of earlier renders. *)
Theorem C5_cells_track_props
    (props : EditorProps) (w : World) (ps : list EditorProps) (next : EditorProps) :
  exists e0 m m' e1 m'',
    mount_painted props w = Ok e0 /\ synced props (refs e0) /\
    mount props w = Ok m /\ synced props (refs (env m)) /\
    rerenders ps m = Ok m' /\ synced (last_props ps props) (refs (env m')) /\
    rerender_painted next m' = Ok e1 /\ synced next (refs e1) /\
    rerender next m' = Ok m'' /\ synced next (refs (env m'')).
Proof.
  destruct (lifecycle props w ps) as (m & m' & Hm & Hrun & Hon & Hsync & Hp & _).
  destruct Hon as (Hlayout & Heff & _).
  eexists. exists m, m'. eexists. eexists.
  split; [unfold mount_painted; rewrite mount_commit_run; reflexivity |].
  split; [repeat split |]. split; [exact Hm |].
  split; [pose proof (mount_synced _ _ _ Hm) as Hs;
          destruct (mount_world _ _ _ Hm) as (Hprops & _); rewrite Hprops in Hs; exact Hs |].
  split; [exact Hrun |]. split; [rewrite <- Hp; exact Hsync |].
  split; [apply rerender_painted_eq; exact Hlayout |]. split; [repeat split |].
  split; [apply rerender_eq; [exact Hlayout | rewrite Heff; reflexivity] |].
  repeat split.
Qed.

(** *** Unmounting *)

(** C6: unmounting a mounted editor, after any renders, runs the
    cleanup of the creation effect, which empties the container: the
    container node keeps its tag and class and has no child left, every
    other DOM node is as before, the one call added to the trace is
    [container.innerHTML = ""], and widgets and parent cells are as
    before. *)
Theorem C6_unmount_clears_container (props : EditorProps) (w : World) (ps : list EditorProps) :
  exists m m' n e,
    mount props w = Ok m /\
    rerenders ps m = Ok m' /\
    es_cleanup (effectState m') = Some (mkCleanup (Some (length (dom w)))) /\
    dom (world (env m')) !! length (dom w) = Some n /\
    unmount m' = Ok e /\
    dom (world e) !! length (dom w) = Some (mkNode (tag n) (className n) []) /\
    (forall k, k <> length (dom w) -> dom (world e) !! k = dom (world (env m')) !! k) /\
    length (dom (world e)) = length (dom (world (env m'))) /\
    trace (world e) = trace (world (env m')) ++ [CallSetInnerHTML (length (dom w)) ""] /\
    quills (world e) = quills (world (env m')) /\
    cells (world e) = cells (world (env m')).
Proof.
  destruct (lifecycle props w ps) as (m & m' & Hm & Hrun & Hon & _).
  pose proof Hon as (_ & Heff & Hlen).
  destruct (lookup_lt_is_Some_2 _ _ Hlen) as [n Hn].
  exists m, m', n. eexists. split; [exact Hm |]. split; [exact Hrun |].
  split; [rewrite Heff; reflexivity |]. split; [exact Hn |].
  split; [apply (unmount_eq (length (dom w)) n); assumption |]. cbn [world dom trace quills cells].
  split; [apply list_lookup_insert_eq; exact Hlen |].
  split; [intros k Hk; apply list_lookup_insert_ne; congruence |].
  split; [apply length_insert |]. repeat split.
Qed.

(** C9: run with a null [containerRef], the creation effect returns at
    once: the environment is unchanged (no element appended, no widget
    constructed), nothing is thrown and no cleanup is registered.  A
    mount never throws. *)
Theorem C9_null_container_is_safe (props : EditorProps) (prev : option Hooks) :
  (forall e, containerRef (refs e) = None ->
     eff_create (r_effect (Editor props prev)) e = Ok (None, e) /\
     run_effect None (r_effect (Editor props prev)) e =
       Ok (mkEffectState None (Some []), e)) /\
  (forall w, exists m, mount props w = Ok m).
Proof.
  split.
  - intros e Hnull. split; [apply creation_effect_null; exact Hnull |].
    unfold run_effect, bind. rewrite creation_effect_null by exact Hnull. reflexivity.
  - intros w. apply mount_total.
Qed.

End Proofs.

(** ** The statements at sample inputs *)

Lemma C1_buttons_by_variant_witness :
  present SendMessage (r_tree (Editor props_create None)) = true /\
  present SendMessage (r_tree (Editor props_update None)) = false.
Proof.
  split.
  - exact (proj2 (proj2 (proj1 (C1_buttons_by_variant props_create None) eq_refl))).
  - exact (proj2 (proj2 (proj1 (proj2 (C1_buttons_by_variant props_update None)) eq_refl))).
Defined.

Lemma C10_tree_depends_on_variant_only_witness :
  variant_of props_update = variant_of props_update_other /\
  r_tree (Editor props_update None) =
  r_tree (Editor props_update_other (Some (refs env_unattached))).
Proof.
  split; [reflexivity |].
  apply (C10_tree_depends_on_variant_only props_update props_update_other). reflexivity.
Defined.

Lemma C9_null_container_is_safe_witness :
  containerRef (refs env_unattached) = None /\
  eff_create (r_effect (Editor props_create None)) env_unattached =
    Ok (None, env_unattached).
Proof.
  split; [reflexivity |].
  apply (proj1 (C9_null_container_is_safe props_create None) env_unattached). reflexivity.
Defined.

(** Mounted with [defaultValue = [{ insert: "hello" }]], the widget
    shows Quill's blank document, not "hello". *)
Lemma C2_counterexample : ~ seeds_widget props_hello world0.
Proof.
  intros Hseed. destruct (mount_total props_hello world0) as [m Hm].
  destruct (Hseed m Hm) as (q & Hlast & Hdoc).
  vm_compute in Hm. injection Hm as <-.
  vm_compute in Hlast. injection Hlast as <-.
  vm_compute in Hdoc. discriminate Hdoc.
Qed.

(** Mounted with [innerRef] naming cell 5, a widget is constructed but
    cell 5 still holds [null]. *)
Lemma C3_counterexample : ~ stores_widget props_with_ref world_with_ref.
Proof.
  intros Hstore. destruct (mount_total props_with_ref world_with_ref) as [m Hm].
  specialize (Hstore m 5 Hm eq_refl).
  vm_compute in Hm. injection Hm as <-.
  vm_compute in Hstore. discriminate Hstore.
Qed.

(** ** Beyond one render: whole lives, defaults, several editors *)

Section Lives.
Context `{QuillLib}.

Lemma steps_spec (l : list Step) (c : NodeId) (m : Mounted) :
  mounted_on c m ->
  exists m',
    steps l m = Ok m' /\
    mounted_on c m' /\
    world (env m') = world (env m) /\
    quillRef (refs (env m')) = quillRef (refs (env m)) /\
    containerRef (refs (env m')) = containerRef (refs (env m)).
Proof.
  revert m. induction l as [| s l IH]; intros m Hon.
  - exists m. repeat split; apply Hon.
  - cbn [steps]. destruct s as [p | a]; cbn [step].
    + destruct Hon as (Hlayout & Heff & Hlen).
      rewrite rerender_eq by (try assumption; rewrite Heff; reflexivity).
      set (m1 := mkMounted _ _ _ _).
      destruct (IH m1) as (m' & Hrun & Hon' & Hw & Hq & Hc).
      { repeat split; assumption. }
      exists m'. split; [exact Hrun |]. split; [exact Hon' |].
      split; [exact Hw |]. split; [exact Hq | exact Hc].
    + rewrite click_inert. apply IH. exact Hon.
Qed.

(** Everything a whole life leaves behind. *)
Lemma life_spec (props : EditorProps) (l : list Step) (w : World) :
  exists e n,
    life props l w = Ok e /\
    containerRef (refs e) = None /\
    quillRef (refs e) = None /\
    dom (world e) !! length (dom w) = Some (mkNode (tag n) (className n) []) /\
    length (dom w) + 2 <= length (dom (world e)) /\
    quills (world e) = quills w ++ [mounted_widget w] /\
    cells (world e) = cells w /\
    trace (world e) =
      trace w ++ [CallCreateElement "div" (S (length (dom w)));
                  CallAppendChild (length (dom w)) (S (length (dom w)));
                  CallNewQuill (S (length (dom w))) snow_options;
                  CallSetInnerHTML (length (dom w)) ""].
Proof.
  unfold life. destruct (mount_total props w) as [m Hm]. rewrite Hm.
  destruct (mount_world _ _ _ Hm) as (_ & _ & Hworld).
  destruct (steps_spec l (length (dom w)) m (mount_mounted_on _ _ _ Hm))
    as (m' & Hrun & Hon & Hw & Hq & _).
  rewrite Hrun. pose proof Hon as (_ & _ & Hlen).
  destruct (lookup_lt_is_Some_2 _ _ Hlen) as [n Hn].
  rewrite (unmount_eq (length (dom w)) n m' Hon Hn).
  eexists. exists n. split; [reflexivity |]. cbn [refs world dom quills cells trace containerRef quillRef].
  split; [reflexivity |].
  split; [rewrite Hq; destruct (mount_world _ _ _ Hm) as (_ & -> & _); reflexivity |].
  split; [apply list_lookup_insert_eq; exact Hlen |].
  rewrite length_insert, Hw, Hworld. cbn [dom quills cells trace].
  split.
  { eapply Nat.le_trans; [| apply quill_render_keeps].
    unfold dom_before_widget. rewrite length_insert, !length_app. cbn. lia. }
  split; [reflexivity |]. split; [reflexivity |].
  rewrite <- app_assoc. reflexivity.
Qed.

Lemma dom_before_widget_old (d : list Node) (k : nat) :
  k < length d -> dom_before_widget d !! k = d !! k.
Proof.
  intros Hk. unfold dom_before_widget.
  rewrite list_lookup_insert_ne by lia.
  rewrite lookup_app_l by (rewrite length_app; cbn; lia).
  apply lookup_app_l. exact Hk.
Qed.



(** X2: over its whole life (mount, any interleaving of renders and
    clicks, unmount) an editor makes exactly four calls, in this order:
    create a [div], append it to the container, construct the widget on
    it, empty the container.  It never calls [onSubmit] or [onCancel],
    never writes a parent cell, and leaves [containerRef] and
    [quillRef] null. *)
Theorem life_makes_four_calls (props : EditorProps) (l : list Step) (w : World) :
  exists e,
    life props l w = Ok e /\
    trace (world e) =
      trace w ++ [CallCreateElement "div" (S (length (dom w)));
                  CallAppendChild (length (dom w)) (S (length (dom w)));
                  CallNewQuill (S (length (dom w))) snow_options;
                  CallSetInnerHTML (length (dom w)) ""] /\
    cells (world e) = cells w /\
    containerRef (refs e) = None /\
    quillRef (refs e) = None.
Proof.
  destruct (life_spec props l w) as (e & n & Hlife & Hc & Hq & _ & _ & _ & Hcells & Htrace).
  exists e. repeat split; assumption.
Qed.

(** X3: only the latest render counts.  After any renders [ps]
    followed by a render with [p], the instance is exactly the one a
    single render with [p] right after the mount gives. *)
Theorem latest_render_wins (props : EditorProps) (w : World)
    (ps : list EditorProps) (p : EditorProps) :
  exists m m1,
    mount props w = Ok m /\
    rerenders (ps ++ [p]) m = Ok m1 /\
    rerender p m = Ok m1.
Proof.
  destruct (mount_total props w) as [m Hm]. exists m.
  pose proof (mount_mounted_on _ _ _ Hm) as Hon.
  assert (Hgen : forall m0, mounted_on (length (dom w)) m0 ->
            rerenders (ps ++ [p]) m0 = rerender p m0).
  { clear Hm Hon m. induction ps as [| q qs IH]; intros m0 Hon.
    - cbn. destruct (rerender p m0); reflexivity.
    - destruct Hon as (Hlayout & Heff & Hlen). cbn [app rerenders].
      rewrite (rerender_eq q) by (try assumption; rewrite Heff; reflexivity).
      rewrite IH by (repeat split; assumption).
      rewrite !rerender_eq by (try assumption; cbn; try rewrite Heff; reflexivity).
      reflexivity. }
  destruct Hon as (Hlayout & Heff & Hlen).
  eexists. split; [exact Hm |]. rewrite Hgen by (repeat split; assumption).
  split; apply rerender_eq; try assumption; rewrite Heff; reflexivity.
Qed.

(** X4: leaving out an optional prop is the same as passing its
    default: placeholder "Write something...", an empty list of
    operations, not disabled, variant "create".  The cells, both
    effects and the tree of the render are the same. *)
Theorem omitted_props_are_defaults (props : EditorProps) (prev : option Hooks)
    (f : Callback) (c : option Callback) (r : option CellId) :
  Editor props prev = Editor (explicit_defaults props) prev /\
  Editor (mkEditorProps f c None None None r None) prev =
  Editor (mkEditorProps f c (Some "Write something...") (Some (DVOps [])) (Some false)
                        r (Some create)) prev.
Proof. split; reflexivity. Qed.

(** X5: mounting again after an unmount builds a second widget on new
    elements.  The new container and the new [div] are not those of
    the first life, the first container is still empty when the second
    widget is constructed, and the first widget stays in the list of
    widgets: the component never tears a widget down. *)
Theorem remount_builds_a_new_widget
    (props : EditorProps) (l : list Step) (w : World) (props' : EditorProps) :
  exists e m2 n,
    life props l w = Ok e /\
    mount props' (world e) = Ok m2 /\
    containerRef (refs (env m2)) = Some (length (dom (world e))) /\
    length (dom w) < length (dom (world e)) /\
    dom_before_widget (dom (world e)) !! length (dom w) =
      Some (mkNode (tag n) (className n) []) /\
    quills (world (env m2)) =
      quills w ++ [mounted_widget w; mounted_widget (world e)] /\
    q_container (mounted_widget (world e)) <> q_container (mounted_widget w).
Proof.
  destruct (life_spec props l w) as (e & n & Hlife & _ & _ & Hnode & Hlen & Hquills & _ & _).
  destruct (mount_total props' (world e)) as [m2 Hm2].
  destruct (mount_world _ _ _ Hm2) as (_ & Hr2 & Hw2).
  exists e, m2, n. split; [exact Hlife |]. split; [exact Hm2 |].
  rewrite Hr2, Hw2. cbn [containerRef quills]. split; [reflexivity |].
  split; [lia |].
  split; [rewrite dom_before_widget_old by lia; exact Hnode |].
  split; [rewrite Hquills, <- app_assoc; reflexivity |].
  cbn. lia.
Qed.


(** X7: two editors on one page do not disturb each other.  When a
    second editor is mounted after a first and the first is then
    unmounted, the two containers are different elements, only the
    first container is emptied, every other element (the second
    container included) is untouched, and both widgets remain. *)
Theorem unmount_spares_other_editor (props1 props2 : EditorProps) (w : World) :
  exists m1 m2 e,
    mount props1 w = Ok m1 /\
    mount props2 (world (env m1)) = Ok m2 /\
    unmount (in_world (world (env m2)) m1) = Ok e /\
    containerRef (refs (env m1)) = Some (length (dom w)) /\
    containerRef (refs (env m2)) = Some (length (dom (world (env m1)))) /\
    length (dom w) < length (dom (world (env m1))) /\
    (forall k, k <> length (dom w) ->
       dom (world e) !! k = dom (world (env m2)) !! k) /\
    (exists n, dom (world e) !! length (dom w) = Some (mkNode (tag n) (className n) [])) /\
    quills (world e) = quills (world (env m2)) /\
    length (quills (world e)) = length (quills w) + 2 /\
    trace (world e) =
      trace (world (env m2)) ++ [CallSetInnerHTML (length (dom w)) ""].
Proof.
  destruct (mount_total props1 w) as [m1 Hm1].
  destruct (mount_total props2 (world (env m1))) as [m2 Hm2].
  pose proof (mount_mounted_on _ _ _ Hm1) as (Hl1 & He1 & Hlen1).
  pose proof (mount_mounted_on _ _ _ Hm2) as (_ & _ & Hlen2).
  destruct (mount_world _ _ _ Hm1) as (_ & Hr1 & Hw1).
  destruct (mount_world _ _ _ Hm2) as (_ & Hr2 & Hw2).
  assert (Hlen : length (dom w) < length (dom (world (env m2)))) by lia.
  destruct (lookup_lt_is_Some_2 _ _ Hlen) as [n Hn].
  assert (Hon : mounted_on (length (dom w)) (in_world (world (env m2)) m1))
    by (repeat split; assumption).
  exists m1, m2. eexists.
  split; [exact Hm1 |]. split; [exact Hm2 |].
  split; [apply (unmount_eq (length (dom w)) n _ Hon Hn) |].
  cbn [in_world env world refs dom quills cells trace].
  split; [rewrite Hr1; reflexivity |]. split; [rewrite Hr2; reflexivity |].
  split; [exact Hlen1 |].
  split; [intros k Hk; apply list_lookup_insert_ne; congruence |].
  split; [exists n; apply list_lookup_insert_eq; exact Hlen |].
  split; [reflexivity |]. split; [| reflexivity].
  rewrite Hw2. cbn [quills]. rewrite Hw1. cbn [quills].
  rewrite !length_app. cbn. lia.
Qed.

(** X8: the toolbar holds four buttons, each a different action, in
    this order: formatting, emoji, image, send for "create";
    formatting, emoji, cancel, save for "update". *)
Theorem toolbar_order (props : EditorProps) (prev : option Hooks) :
  let tree := r_tree (Editor props prev) in
  actions tree =
    match variant_of props with
    | create => [ToggleFormatting; EmojiPicker; AttachImage; SendMessage]
    | update => [ToggleFormatting; EmojiPicker; CancelEdit; SaveEdit]
    end /\
  NoDup (actions tree) /\
  length (buttons tree) = length (actions tree).
Proof.
  cbn zeta. cbn [Editor r_tree]. fold (variant_of props).
  destruct (variant_of props); cbn; (split; [reflexivity |]); (split; [| reflexivity]);
    apply (bool_decide_unpack _); vm_compute; exact I.
Qed.


End Lives.

